(** * Monitoring FastAPI endpoints with ArgillaLogHTTPMiddleware

    A shallow embedding of the tutorial application of
    [docs/_source/tutorials_and_integrations/integrations/
     monitor_endpoints with_fastapi.ipynb]:
    the two prediction handlers, the two record mappers, the health
    endpoint and the route / middleware registrations, both as the
    notebook cells build them and as the appendix [main.py] does.

    External collaborators (the transformers pipeline, the spaCy
    pipeline, the two library mappers of [argilla.monitoring.asgi]) are
    section variables: calls into them may touch the process state and
    may raise, so they live in a state-and-exception monad. *)

From Stdlib Require Import String List ZArith Lia Bool PrimFloat.
Import ListNotations.
Local Open Scope string_scope.

Set Implicit Arguments.
Set Warnings "-inexact-float".

(** ** Effects: a state-and-exception monad

    [World] stands for whatever mutable state the Python process holds
    (model caches, clocks, sockets); [Exn] for the exceptions a call can
    raise.  A computation takes the world and gives back either a value
    or an exception, together with the world it leaves behind. *)

Module Eff.

Inductive result (E A : Type) : Type :=
| Ok (a : A)
| Raise (e : E).
Arguments Ok {E A} a.
Arguments Raise {E A} e.

Definition M (W E A : Type) : Type := W -> result E A * W.

Definition ret {W E A} (a : A) : M W E A := fun w => (Ok a, w).

Definition bind {W E A B} (c : M W E A) (k : A -> M W E B) : M W E B :=
  fun w =>
    match c w with
    | (Ok a, w') => k a w'
    | (Raise e, w') => (Raise e, w')
    end.

(** A Python list comprehension whose body is a call: the calls happen
    left to right and the first exception aborts the comprehension. *)
Fixpoint comprehension {W E A B} (f : A -> M W E B) (xs : list A)
  : M W E (list B) :=
  match xs with
  | [] => ret []
  | x :: rest =>
      bind (f x) (fun y =>
      bind (comprehension f rest) (fun ys =>
      ret (y :: ys)))
  end.

(** The same comprehension over a body that cannot touch the world:
    only the first exception, if any, matters. *)
Fixpoint collect {E A B} (g : A -> result E B) (xs : list A)
  : result E (list B) :=
  match xs with
  | [] => Ok []
  | x :: rest =>
      match g x with
      | Ok y =>
          match collect g rest with
          | Ok ys => Ok (y :: ys)
          | Raise e => Raise e
          end
      | Raise e => Raise e
      end
  end.

End Eff.

Import Eff.

Declare Scope eff_scope.
Delimit Scope eff_scope with eff.
Notation "x <- c ;; k" := (bind c (fun x => k))
  (at level 61, c at next level, right associativity) : eff_scope.
Local Open Scope eff_scope.

(** ** Data model *)

(** One element of a raw text-classification prediction, the dict
    [{'label': ..., 'score': ...}] the pipeline returns when called with
    [return_all_scores=True]. *)
Record LabelScore : Type := mkLabelScore {
  label : string;
  score : float
}.

(** One element of the response of [POST /sentiment/]:
    [{"labels": [...], "scores": [...]}]. *)
Record SentimentRecord : Type := mkSentimentRecord {
  labels : list string;
  scores : list float
}.

(** A spaCy entity span, with the three attributes the handler reads. *)
Record Span : Type := mkSpan {
  label_ : string;
  start_char : Z;
  end_char : Z
}.

(** A spaCy [Doc]; the handler only reads [doc.ents]. *)
Record Doc : Type := mkDoc {
  ents : list Span
}.

(** One entity of the response of [POST /ner/]:
    [{"label": ..., "start": ..., "end": ...}]; the keys carry a prefix
    here because [end] is reserved and [label] is taken above. *)
Record Entity : Type := mkEntity {
  e_label : string;
  e_start : Z;
  e_end : Z
}.

(** One element of the response of [POST /ner/]:
    [{"text": ..., "entities": [...]}]. *)
Record NerRecord : Type := mkNerRecord {
  text : string;
  entities : list Entity
}.

(** ** The recorded example of the notebook (section "Model output") *)

(** [batch = ["I really like argilla!"]] *)
Definition batch_example : list string := ["I really like argilla!"].

(** The printed value of [predictions = transformers_pipeline(batch)]. *)
Definition predictions_example : list (list LabelScore) :=
  [[ mkLabelScore "NEGATIVE" 0.0029897126369178295%float;
     mkLabelScore "POSITIVE" 0.9970102310180664%float ]].

(** The comprehension of the cell "Convert output to Argilla format". *)
Definition argilla_format (predictions : list (list LabelScore))
  : list SentimentRecord :=
  map (fun prediction =>
         {| labels := map (fun p => label p) prediction;
            scores := map (fun p => score p) prediction |})
      predictions.

(** Python's [abs(x - 1.0) <= 1e-6] on binary64 floats: the reading of
    "approximately 1.0" used for the recorded example. *)
Definition approx_one (x : float) : bool :=
  PrimFloat.leb (PrimFloat.abs (PrimFloat.sub x 1%float)) 1e-6%float.

(** The binary64 sum of a list, added left to right from [0.0]. *)
Definition fsum (xs : list float) : float :=
  fold_left PrimFloat.add xs 0%float.

(** ** Routes and middleware registrations *)

Inductive Method : Type := GET | POST.

(** The functions the decorators [@app.post] / [@app.get] are put on. *)
Inductive Endpoint : Type :=
| ep_predict_transformers
| ep_predict_spacy
| ep_root.

(** The functions passed as [records_mapper]. *)
Inductive Mapper : Type :=
| mp_text2records
| mp_token2records.

Record Route : Type := mkRoute {
  method : Method;
  path : string;
  endpoint : Endpoint
}.

(** The keyword arguments of one [app.add_middleware(
    ArgillaLogHTTPMiddleware, ...)] call. *)
Record Middleware : Type := mkMiddleware {
  api_endpoint : string;
  dataset : string;
  records_mapper : Mapper
}.

Record FastAPI : Type := mkFastAPI {
  routes : list Route;
  user_middleware : list Middleware
}.

(** [app = FastAPI()] *)
Definition FastAPI_new : FastAPI :=
  {| routes := []; user_middleware := [] |}.

(** [@app.post(p)] on function [f]. *)
Definition app_post (p : string) (f : Endpoint) (app : FastAPI) : FastAPI :=
  {| routes := routes app ++ [mkRoute POST p f];
     user_middleware := user_middleware app |}.

(** [@app.get(p)] on function [f]. *)
Definition app_get (p : string) (f : Endpoint) (app : FastAPI) : FastAPI :=
  {| routes := routes app ++ [mkRoute GET p f];
     user_middleware := user_middleware app |}.

(** [app.add_middleware(ArgillaLogHTTPMiddleware, api_endpoint=...,
    dataset=..., records_mapper=...)]; registrations are kept in source
    order, oldest first.  The framework keeps its own list newest first;
    nothing below depends on the order, only on which registrations
    there are. *)
Definition add_middleware (m : Middleware) (app : FastAPI) : FastAPI :=
  {| routes := routes app;
     user_middleware := user_middleware app ++ [m] |}.

(** The application as the notebook cells 3, 4 and 5 build it. *)
Definition notebook_app : FastAPI :=
  app_get "/" ep_root
  (app_post "/ner/" ep_predict_spacy
  (add_middleware (mkMiddleware "/spacy/" "monitoring_spacy" mp_token2records)
  (add_middleware
     (mkMiddleware "/transformers/" "monitoring_transformers" mp_text2records)
  (app_post "/sentiment/" ep_predict_transformers
   FastAPI_new)))).

(** The application of the appendix, [main.py]. *)
Definition main_py_app : FastAPI :=
  app_get "/" ep_root
  (add_middleware
     (mkMiddleware "/sentiment/" "monitoring_transformers" mp_text2records)
  (add_middleware (mkMiddleware "/ner/" "monitoring_spacy" mp_token2records)
  (app_post "/ner/" ep_predict_spacy
  (add_middleware
     (mkMiddleware "/transformers/" "monitoring_transformers" mp_text2records)
  (app_post "/sentiment/" ep_predict_transformers
   FastAPI_new))))).

(** The prediction endpoints are the two handlers commented
    "prediction endpoint using ..." in the source. *)
Definition is_prediction (r : Route) : bool :=
  match endpoint r with
  | ep_predict_transformers | ep_predict_spacy => true
  | ep_root => false
  end.

Definition prediction_paths (app : FastAPI) : list string :=
  map path (filter is_prediction (routes app)).

(** The route a registration is configured on is the path of a
    prediction endpoint the application serves. *)
Definition registration_served (app : FastAPI) (m : Middleware) : bool :=
  existsb (String.eqb (api_endpoint m)) (prediction_paths app).

(** The registrations whose configured route equals the request path. *)
Definition configured_for (app : FastAPI) (p : string) : list Middleware :=
  filter (fun m => String.eqb (api_endpoint m) p) (user_middleware app).

(** Every prediction endpoint has a registration configured on it. *)
Definition predictions_monitored (app : FastAPI) : bool :=
  forallb (fun p => negb (Nat.eqb (length (configured_for app p)) 0))
          (prediction_paths app).

(** ** Stand-ins for the external collaborators

    Concrete pipelines and mappers on which the general statements below
    are instantiated.  The world is a call counter, so these stand-ins
    do write state, as a real model call may. *)

(** A pipeline answering every text with the recorded prediction. *)
Definition stub_transformers_pipeline (batch : list string)
  : M nat string (list (list LabelScore)) :=
  fun calls =>
    (Ok (map (fun _ => [ mkLabelScore "NEGATIVE" 0.0029897126369178295%float;
                         mkLabelScore "POSITIVE" 0.9970102310180664%float ])
             batch),
     S calls).

(** A pipeline tagging a non-empty text as one entity, end to end. *)
Definition stub_spacy_pipeline (t : string) : M nat string Doc :=
  fun calls =>
    match t with
    | EmptyString => (Ok (mkDoc []), S calls)
    | String _ _ =>
        (Ok (mkDoc [mkSpan "TEXT" 0 (Z.of_nat (String.length t))]), S calls)
    end.

(** The pipeline on the two texts the notebook posts to [/sentiment/],
    with the scores of the recorded response. *)
Definition recorded_transformers_pipeline (batch : list string)
  : M nat string (list (list LabelScore)) :=
  fun calls =>
    (Ok (map (fun t =>
                if String.eqb t "I like Argilla" then
                  [ mkLabelScore "NEGATIVE" 0.8717259168624878%float;
                    mkLabelScore "POSITIVE" 0.128274068236351%float ]
                else
                  [ mkLabelScore "NEGATIVE" 0.9916356801986694%float;
                    mkLabelScore "POSITIVE" 0.008364332839846611%float ])
             batch),
     S calls).

(** A pipeline whose model fails to answer. *)
Definition failing_transformers_pipeline (batch : list string)
  : M nat string (list (list LabelScore)) :=
  fun calls => (Raise "inference failed", S calls).

(** Mappers that pair the input with the output and touch nothing. *)
Definition stub_text_mapper (data : string) (prediction : SentimentRecord)
  : M nat string (string * SentimentRecord) :=
  ret (data, prediction).

Definition stub_token_mapper (data : string) (prediction : NerRecord)
  : M nat string (string * NerRecord) :=
  ret (data, prediction).

(** Mappers that stamp the record with the time of the call and let the
    clock tick, the world being the clock: what a mapper does that sets
    the record's [event_timestamp] to the current time.  The record is
    the input, the output and the stamp. *)
Definition stamping_text_mapper (data : string) (prediction : SentimentRecord)
  : M nat string (string * SentimentRecord * nat) :=
  fun clock => (Ok (data, prediction, clock), S clock).

Definition stamping_token_mapper (data : string) (prediction : NerRecord)
  : M nat string (string * NerRecord * nat) :=
  fun clock => (Ok (data, prediction, clock), S clock).

(** A spaCy pipeline that answers as [stub_spacy_pipeline] does and
    touches no state. *)
Definition quiet_spacy_doc (t : string) : Doc :=
  match t with
  | EmptyString => mkDoc []
  | String _ _ => mkDoc [mkSpan "TEXT" 0 (Z.of_nat (String.length t))]
  end.

Definition quiet_spacy_pipeline (t : string) : M nat string Doc :=
  ret (quiet_spacy_doc t).

(** A spaCy pipeline that refuses the empty text. *)
Definition picky_spacy_pipeline (t : string) : M nat string Doc :=
  fun calls =>
    match t with
    | EmptyString => (Raise "empty text", S calls)
    | String _ _ => stub_spacy_pipeline t calls
    end.

(** A mapper that refuses a prediction without labels. *)
Definition picky_text_mapper (data : string) (prediction : SentimentRecord)
  : M nat string (string * SentimentRecord) :=
  fun calls =>
    match labels prediction with
    | [] => (Raise "no labels", S calls)
    | _ :: _ => (Ok (data, prediction), S calls)
    end.

Definition picky_token_mapper (data : string) (prediction : NerRecord)
  : M nat string (string * NerRecord) :=
  fun calls =>
    match entities prediction with
    | [] => (Raise "no entities", S calls)
    | _ :: _ => (Ok (data, prediction), S calls)
    end.

(** ** Observing the calls made to a collaborator

    [traced f] behaves as [f] and keeps, beside the world, the list of
    the arguments it has been called with, oldest first.  Running a
    handler on a traced collaborator shows which calls the handler
    makes, and in which order. *)

Definition traced {W E A B} (f : A -> M W E B)
  : A -> M (W * list A) E B :=
  fun a s =>
    match f a (fst s) with
    | (r, w') => (r, (w', (snd s ++ [a])%list))
    end.

Definition traced2 {W E A B C} (f : A -> B -> M W E C)
  : A -> B -> M (W * list (A * B)) E C :=
  fun a b s =>
    match f a b (fst s) with
    | (r, w') => (r, (w', (snd s ++ [(a, b)])%list))
    end.

(** ** The handlers and the record mappers *)

Section App.

Variables (World Exn : Type).

Local Abbreviation IO := (M World Exn).

(** [transformers_pipeline = pipeline("text-classification",
    return_all_scores=True)]: one call on the whole batch. *)
Variable transformers_pipeline : list string -> IO (list (list LabelScore)).

(** [spacy_pipeline = spacy.load("en_core_web_sm")]: one call per text. *)
Variable spacy_pipeline : string -> IO Doc.

(** The record classes and mappers of [argilla.monitoring.asgi]. *)
Variables (TextClassificationRecord TokenClassificationRecord : Type).
Variable text_classification_mapper :
  string -> SentimentRecord -> IO TextClassificationRecord.
Variable token_classification_mapper :
  string -> NerRecord -> IO TokenClassificationRecord.

(** [@app.post("/sentiment/") def predict_transformers(batch)] *)
Definition predict_transformers (batch : list string)
  : IO (list SentimentRecord) :=
  predictions <- transformers_pipeline batch ;;
  ret (map (fun prediction =>
              {| labels := map (fun p => label p) prediction;
                 scores := map (fun p => score p) prediction |})
           predictions).

(** [def text2records(batch, outputs)] *)
Definition text2records (batch : list string) (outputs : list SentimentRecord)
  : IO (list TextClassificationRecord) :=
  comprehension
    (fun '(data, prediction) => text_classification_mapper data prediction)
    (combine batch outputs).

(** [def token2records(batch, outputs)] *)
Definition token2records (batch : list string) (outputs : list NerRecord)
  : IO (list TokenClassificationRecord) :=
  comprehension
    (fun '(data, prediction) => token_classification_mapper data prediction)
    (combine batch outputs).

(** The entity comprehension of [predict_spacy]. *)
Definition doc_entities (doc : Doc) : list Entity :=
  map (fun ent => {| e_label := label_ ent;
                     e_start := start_char ent;
                     e_end := end_char ent |})
      (ents doc).

(** The [for text in batch] loop of [predict_spacy]; [predictions] is
    the list the loop appends to. *)
Fixpoint predict_spacy_loop (batch : list string) (predictions : list NerRecord)
  : IO (list NerRecord) :=
  match batch with
  | [] => ret predictions
  | text :: rest =>
      doc <- spacy_pipeline text ;;
      let entities := doc_entities doc in
      let prediction := {| text := text; entities := entities |} in
      predict_spacy_loop rest (predictions ++ [prediction])%list
  end.

(** What the loop has appended when it ends, given the docs the
    provider returned for the texts of the batch, in order. *)
Definition ner_records (batch : list string) (docs : list Doc)
  : list NerRecord :=
  map (fun '(text, doc) => {| text := text; entities := doc_entities doc |})
      (combine batch docs).

(** [@app.post("/ner/") def predict_spacy(batch)] *)
Definition predict_spacy (batch : list string) : IO (list NerRecord) :=
  predict_spacy_loop batch [].

(** [@app.get("/") def root()]; the returned dict as its item list. *)
Definition root : IO (list (string * string)) :=
  ret [("message", "alive")].

(** A library call that neither reads nor writes the world: its outcome
    is a function of its two arguments alone. *)
Definition stateless {A B C : Type} (f : A -> B -> IO C) : Prop :=
  exists g : A -> B -> result Exn C, forall a b w, f a b w = (g a b, w).

(** The provider's span invariant for a text: offsets are ordered,
    non-empty and inside the text. *)
Definition span_in_text (t : string) (s : Span) : Prop :=
  (0 <= start_char s < end_char s)%Z /\
  (end_char s <= Z.of_nat (String.length t))%Z.

Definition entity_in_text (t : string) (e : Entity) : Prop :=
  (0 <= e_start e < e_end e)%Z /\
  (e_end e <= Z.of_nat (String.length t))%Z.

(** ** Properties *)

(** *** The monad and the comprehension *)

Lemma bind_ok {A B : Type} (c : IO A) (k : A -> IO B) w a w' :
  c w = (Ok a, w') -> bind c k w = k a w'.
Proof. intros Hc. unfold bind. now rewrite Hc. Qed.

Lemma bind_raise {A B : Type} (c : IO A) (k : A -> IO B) w e w' :
  c w = (Raise e, w') -> bind c k w = (Raise e, w').
Proof. intros Hc. unfold bind. now rewrite Hc. Qed.

Lemma bind_ok_inv {A B : Type} (c : IO A) (k : A -> IO B) w b w'' :
  bind c k w = (Ok b, w'') ->
  exists a w', c w = (Ok a, w') /\ k a w' = (Ok b, w'').
Proof.
  unfold bind. destruct (c w) as [[a|e] w'] eqn:Hc; intros Hk.
  - now exists a, w'.
  - discriminate.
Qed.

Lemma comprehension_cons_ok {A B : Type} (f : A -> IO B) x rest w y w1 ys w2 :
  f x w = (Ok y, w1) ->
  comprehension f rest w1 = (Ok ys, w2) ->
  comprehension f (x :: rest) w = (Ok (y :: ys), w2).
Proof.
  intros Hx Hrest. cbn [comprehension].
  erewrite bind_ok by exact Hx. erewrite bind_ok by exact Hrest. reflexivity.
Qed.

Lemma comprehension_cons_inv {A B : Type} (f : A -> IO B) x rest w out w2 :
  comprehension f (x :: rest) w = (Ok out, w2) ->
  exists y w1 ys,
    f x w = (Ok y, w1) /\
    comprehension f rest w1 = (Ok ys, w2) /\
    out = y :: ys.
Proof.
  cbn [comprehension]. intros H.
  apply bind_ok_inv in H as (y & w1 & Hx & H).
  apply bind_ok_inv in H as (ys & w2' & Hrest & H).
  unfold ret in H. injection H as <- <-.
  now exists y, w1, ys.
Qed.

Lemma comprehension_length {A B : Type} (f : A -> IO B) xs :
  forall w out w', comprehension f xs w = (Ok out, w') ->
                   length out = length xs.
Proof.
  induction xs as [|x rest IH]; intros w out w' H.
  - cbn in H. unfold ret in H. now injection H as <- _.
  - apply comprehension_cons_inv in H as (y & w1 & ys & _ & Hrest & ->).
    cbn. f_equal. eapply IH, Hrest.
Qed.

(** A comprehension over calls that do not raise returns. *)
Lemma comprehension_total {A B : Type} (f : A -> IO B) xs :
  (forall x w, In x xs -> exists y w', f x w = (Ok y, w')) ->
  forall w, exists out w', comprehension f xs w = (Ok out, w').
Proof.
  induction xs as [|x rest IH]; intros Hf w.
  - now exists [], w.
  - destruct (Hf x w (or_introl eq_refl)) as (y & w1 & Hx).
    destruct (IH (fun x' w' Hin => Hf x' w' (or_intror Hin)) w1)
      as (ys & w2 & Hrest).
    exists (y :: ys), w2. now apply comprehension_cons_ok with w1.
Qed.

(** Each element of the result is what the body returned for the
    element at the same position. *)
Lemma comprehension_Forall2 {A B : Type} (f : A -> IO B) xs :
  forall w out w',
    comprehension f xs w = (Ok out, w') ->
    Forall2 (fun x y => exists w1 w2, f x w1 = (Ok y, w2)) xs out.
Proof.
  induction xs as [|x rest IH]; intros w out w' H.
  - cbn in H. unfold ret in H. injection H as <- _. constructor.
  - apply comprehension_cons_inv in H as (y & w1 & ys & Hx & Hrest & ->).
    constructor; [now exists w, w1|]. eapply IH, Hrest.
Qed.

(** A comprehension over a stateless body is itself stateless. *)
Lemma comprehension_collect {A B : Type} (f : A -> IO B)
      (g : A -> result Exn B) :
  (forall x w, f x w = (g x, w)) ->
  forall xs w, comprehension f xs w = (collect g xs, w).
Proof.
  intros Hf xs. induction xs as [|x rest IH]; intros w.
  - reflexivity.
  - cbn [comprehension collect]. unfold bind at 1. rewrite Hf.
    destruct (g x) as [y|e]; [|reflexivity].
    unfold bind. rewrite IH.
    destruct (collect g rest); reflexivity.
Qed.

(** [zip] stops at the shorter list. *)
Lemma combine_firstn_min {A B : Type} (xs : list A) (ys : list B) :
  combine (firstn (Nat.min (length xs) (length ys)) xs)
          (firstn (Nat.min (length xs) (length ys)) ys)
  = combine xs ys.
Proof.
  revert ys. induction xs as [|x xs IH]; intros [|y ys]; cbn; try reflexivity.
  f_equal. apply IH.
Qed.

(** *** The sentiment handler *)

(** The handler is the provider call followed by the conversion of the
    notebook's "Convert output to Argilla format" cell. *)
Lemma predict_transformers_run batch w :
  predict_transformers batch w =
    match transformers_pipeline batch w with
    | (Ok predictions, w') => (Ok (argilla_format predictions), w')
    | (Raise e, w') => (Raise e, w')
    end.
Proof. reflexivity. Qed.

Lemma predict_transformers_inv batch w out w' :
  predict_transformers batch w = (Ok out, w') ->
  exists predictions,
    transformers_pipeline batch w = (Ok predictions, w') /\
    out = argilla_format predictions.
Proof.
  rewrite predict_transformers_run.
  destruct (transformers_pipeline batch w) as [[predictions|e] w1];
    intros H; [|discriminate].
  injection H as <- <-. now exists predictions.
Qed.

(** A provider exception leaves the handler as it is. *)
Lemma predict_transformers_propagates batch w e w' :
  transformers_pipeline batch w = (Raise e, w') ->
  predict_transformers batch w = (Raise e, w').
Proof. intros H. unfold predict_transformers. now apply bind_raise. Qed.

(** C2: when the provider returns one raw prediction per input, the
    handler returns a list as long as the batch, and the object at
    position i is built from the raw prediction at position i, that is,
    from the prediction of the i-th input. *)
Theorem C2_predict_transformers_one_per_input batch w predictions w' :
  transformers_pipeline batch w = (Ok predictions, w') ->
  length predictions = length batch ->
  exists out,
    predict_transformers batch w = (Ok out, w') /\
    length out = length batch /\
    forall i data, nth_error batch i = Some data ->
      exists prediction,
        nth_error predictions i = Some prediction /\
        nth_error out i =
          Some {| labels := map (fun p => label p) prediction;
                  scores := map (fun p => score p) prediction |}.
Proof.
  intros Hrun Hlen. exists (argilla_format predictions).
  split; [|split].
  - rewrite predict_transformers_run, Hrun. reflexivity.
  - unfold argilla_format. now rewrite length_map.
  - intros i data Hi.
    assert (Hlt : (i < length predictions)%nat).
    { rewrite Hlen. apply nth_error_Some. congruence. }
    destruct (nth_error predictions i) as [prediction|] eqn:Hp.
    + exists prediction. split; [reflexivity|].
      unfold argilla_format. rewrite nth_error_map, Hp. reflexivity.
    + apply nth_error_Some in Hlt. contradiction.
Qed.

(** C4: in every record the handler produces, the labels list and the
    scores list have the same length. *)
Theorem C4_labels_scores_same_length batch w out w' :
  predict_transformers batch w = (Ok out, w') ->
  Forall (fun r => length (labels r) = length (scores r)) out.
Proof.
  intros H. apply predict_transformers_inv in H as (predictions & _ & ->).
  unfold argilla_format. apply Forall_map, Forall_forall.
  intros prediction _. cbn. now rewrite !length_map.
Qed.

(** C10: in every record the handler produces, position i of labels and
    position i of scores are read from the same element, the i-th
    label/score dict of the raw prediction the record is built from. *)
Theorem C10_labels_scores_aligned batch w out w' :
  predict_transformers batch w = (Ok out, w') ->
  exists predictions,
    transformers_pipeline batch w = (Ok predictions, w') /\
    Forall2
      (fun r prediction =>
         forall i,
           nth_error (labels r) i = option_map label (nth_error prediction i) /\
           nth_error (scores r) i = option_map score (nth_error prediction i))
      out predictions.
Proof.
  intros H. apply predict_transformers_inv in H as (predictions & Hrun & ->).
  exists predictions. split; [exact Hrun|].
  unfold argilla_format. clear Hrun.
  induction predictions as [|prediction rest IH]; cbn; constructor.
  - intros i. cbn. now rewrite !nth_error_map.
  - exact IH.
Qed.

(** *** The NER handler *)

(** The loop appends one record per text, built from the doc the
    provider returned for it; a provider exception ends the loop. *)
Lemma predict_spacy_loop_run batch :
  forall predictions w,
    predict_spacy_loop batch predictions w =
      match comprehension spacy_pipeline batch w with
      | (Ok docs, w') => (Ok (predictions ++ ner_records batch docs)%list, w')
      | (Raise e, w') => (Raise e, w')
      end.
Proof.
  induction batch as [|t rest IH]; intros predictions w.
  - cbn. unfold ret. now rewrite app_nil_r.
  - cbn [predict_spacy_loop comprehension]. unfold bind.
    destruct (spacy_pipeline t w) as [[doc|e] w1]; [|reflexivity].
    rewrite IH.
    destruct (comprehension spacy_pipeline rest w1) as [[docs|e] w2];
      [|reflexivity].
    unfold ret, ner_records. cbn. now rewrite <- app_assoc.
Qed.

Lemma predict_spacy_inv batch w out w' :
  predict_spacy batch w = (Ok out, w') ->
  exists docs,
    comprehension spacy_pipeline batch w = (Ok docs, w') /\
    out = ner_records batch docs.
Proof.
  unfold predict_spacy. rewrite predict_spacy_loop_run.
  destruct (comprehension spacy_pipeline batch w) as [[docs|e] w1];
    intros H; [|discriminate].
  injection H as <- <-. now exists docs.
Qed.

Lemma ner_records_Forall2 (P : string -> Doc -> Prop) batch docs :
  Forall2 P batch docs ->
  Forall2 (fun t r => text r = t /\
                      exists doc, P t doc /\ entities r = doc_entities doc)
          batch (ner_records batch docs).
Proof.
  unfold ner_records.
  induction 1 as [|t doc batch docs HP _ IH]; cbn; constructor.
  - split; [reflexivity|]. now exists doc.
  - exact IH.
Qed.

(** C3: the handler returns one record per input text, in input order;
    the text field of a record is the input text at its position, and
    its entities are the label / start / end triples of the spans the
    provider returned for that text. *)
Theorem C3_predict_spacy_one_per_text batch w :
  (forall t w0, In t batch -> exists doc w1, spacy_pipeline t w0 = (Ok doc, w1)) ->
  exists out w',
    predict_spacy batch w = (Ok out, w') /\
    length out = length batch /\
    Forall2
      (fun t r =>
         text r = t /\
         exists doc w1 w2,
           spacy_pipeline t w1 = (Ok doc, w2) /\
           entities r =
             map (fun ent => {| e_label := label_ ent;
                                e_start := start_char ent;
                                e_end := end_char ent |})
                 (ents doc))
      batch out.
Proof.
  intros Hprov.
  destruct (comprehension_total spacy_pipeline batch Hprov w)
    as (docs & w' & Hdocs).
  exists (ner_records batch docs), w'.
  assert (Hrun : predict_spacy batch w = (Ok (ner_records batch docs), w')).
  { unfold predict_spacy. now rewrite predict_spacy_loop_run, Hdocs. }
  assert (Hrel := ner_records_Forall2 (comprehension_Forall2 _ _ _ Hdocs)).
  split; [exact Hrun|]. split.
  - symmetry. eapply Forall2_length, Hrel.
  - eapply Forall2_impl; [|exact Hrel].
    intros t r (Ht & doc & (w1 & w2 & Hcall) & Hents).
    split; [exact Ht|]. now exists doc, w1, w2.
Qed.

(** C5: provided the spans the provider returns for a text are ordered,
    non-empty and inside that text, every entity of every record the
    handler produces satisfies 0 <= start < end <= length(text). *)
Theorem C5_entities_in_text :
  (forall t w doc w',
      spacy_pipeline t w = (Ok doc, w') ->
      Forall (fun s => (0 <= start_char s < end_char s)%Z /\
                       (end_char s <= Z.of_nat (String.length t))%Z)
             (ents doc)) ->
  forall batch w out w',
    predict_spacy batch w = (Ok out, w') ->
    Forall (fun r =>
              Forall (fun e => (0 <= e_start e < e_end e)%Z /\
                               (e_end e <= Z.of_nat (String.length (text r)))%Z)
                     (entities r))
           out.
Proof.
  intros Hspans batch w out w' H.
  apply predict_spacy_inv in H as (docs & Hdocs & ->).
  assert (Hrel := ner_records_Forall2 (comprehension_Forall2 _ _ _ Hdocs)).
  revert Hrel. generalize (ner_records batch docs). clear Hdocs.
  induction 1 as [|t r batch' out' Hr _ IH]; constructor; [|exact IH].
  destruct Hr as (Ht & doc & (w1 & w2 & Hcall) & Hents).
  rewrite Ht, Hents. unfold doc_entities.
  apply Forall_map. cbn. eapply Hspans, Hcall.
Qed.

(** *** The health endpoint *)

(** C6: [GET /] returns the object with the single item
    "message": "alive", whatever the state of the process, and leaves
    that state as it found it. *)
Theorem C6_root_alive :
  forall w : World, root w = (Ok [("message", "alive")], w).
Proof. intros w. reflexivity. Qed.

(** *** The record mappers *)

Lemma zip_comprehension_stateless {A B C : Type} (f : A -> B -> IO C) :
  stateless f ->
  forall (xs : list A) (ys : list B),
  exists out,
    forall w, comprehension (fun '(x, y) => f x y) (combine xs ys) w = (out, w).
Proof.
  intros (g & Hg) xs ys.
  exists (collect (fun '(x, y) => g x y) (combine xs ys)).
  apply comprehension_collect. intros [x y] w. apply Hg.
Qed.

Lemma zip_comprehension_length {A B C : Type} (f : A -> B -> IO C) :
  (forall x y w, exists r w', f x y w = (Ok r, w')) ->
  forall (xs : list A) (ys : list B) w,
  exists out w',
    comprehension (fun '(x, y) => f x y) (combine xs ys) w = (Ok out, w') /\
    length out = Nat.min (length xs) (length ys).
Proof.
  intros Hf xs ys w.
  destruct (comprehension_total (fun '(x, y) => f x y) (combine xs ys)) with (w := w)
    as (out & w' & Hrun).
  { intros [x y] w0 _. apply Hf. }
  exists out, w'. split; [exact Hrun|].
  rewrite (comprehension_length _ _ _ Hrun). apply length_combine.
Qed.

(** C9: when the library mappers do not raise, [text2records] and
    [token2records] return exactly min(len(batch), len(outputs)) records
    whatever the two lengths are, and their outcome is the one obtained
    on the two lists cut to that common length: [zip] drops the surplus
    of the longer list without any report. *)
Theorem C9_zip_drops_surplus :
  (forall data prediction w,
      exists r w', text_classification_mapper data prediction w = (Ok r, w')) ->
  (forall data prediction w,
      exists r w', token_classification_mapper data prediction w = (Ok r, w')) ->
  forall batch w,
    (forall outputs,
        let n := Nat.min (length batch) (length outputs) in
        (exists records w',
            text2records batch outputs w = (Ok records, w') /\
            length records = n) /\
        text2records batch outputs w =
          text2records (firstn n batch) (firstn n outputs) w) /\
    (forall outputs,
        let n := Nat.min (length batch) (length outputs) in
        (exists records w',
            token2records batch outputs w = (Ok records, w') /\
            length records = n) /\
        token2records batch outputs w =
          token2records (firstn n batch) (firstn n outputs) w).
Proof.
  intros Htext Htoken batch w. split; intros outputs n; subst n; split.
  - apply (zip_comprehension_length _ Htext).
  - unfold text2records. now rewrite combine_firstn_min.
  - apply (zip_comprehension_length _ Htoken).
  - unfold token2records. now rewrite combine_firstn_min.
Qed.

(** C7: with library mappers that do not touch the process state,
    [text2records] and [token2records] have an outcome that is a
    function of (batch, outputs) alone and leave the state unchanged;
    and the two prediction handlers add no state access of their own to
    the provider's: two runs in which the provider returned the same
    outputs for the same batch return the same records, each in the
    state the provider left. *)
Theorem C7_mappers_and_adapter_stateless :
  stateless text_classification_mapper ->
  stateless token_classification_mapper ->
  (forall batch outputs,
      exists outcome, forall w, text2records batch outputs w = (outcome, w)) /\
  (forall batch outputs,
      exists outcome, forall w, token2records batch outputs w = (outcome, w)) /\
  (forall batch predictions w1 w1' w2 w2',
      transformers_pipeline batch w1 = (Ok predictions, w1') ->
      transformers_pipeline batch w2 = (Ok predictions, w2') ->
      exists out,
        predict_transformers batch w1 = (Ok out, w1') /\
        predict_transformers batch w2 = (Ok out, w2')) /\
  (forall batch docs w1 w1' w2 w2',
      comprehension spacy_pipeline batch w1 = (Ok docs, w1') ->
      comprehension spacy_pipeline batch w2 = (Ok docs, w2') ->
      exists out,
        predict_spacy batch w1 = (Ok out, w1') /\
        predict_spacy batch w2 = (Ok out, w2')).
Proof.
  intros Htext Htoken. repeat split.
  - intros batch outputs. apply (zip_comprehension_stateless Htext).
  - intros batch outputs. apply (zip_comprehension_stateless Htoken).
  - intros batch predictions w1 w1' w2 w2' H1 H2.
    exists (argilla_format predictions).
    now rewrite !predict_transformers_run, H1, H2.
  - intros batch docs w1 w1' w2 w2' H1 H2.
    exists (ner_records batch docs).
    unfold predict_spacy. now rewrite !predict_spacy_loop_run, H1, H2.
Qed.

End App.

(** ** The recorded example *)

(** C8: on the notebook's example batch, with the prediction the binary
    sentiment pipeline printed for it, the adapter yields exactly one
    record; its labels are NEGATIVE then POSITIVE and its scores are two
    floats whose sum is within 1e-6 of 1.0. *)
Theorem C8_example_record :
  length batch_example = 1%nat /\
  argilla_format predictions_example =
    [ {| labels := ["NEGATIVE"; "POSITIVE"];
         scores := [0.0029897126369178295%float;
                    0.9970102310180664%float] |} ] /\
  Forall (fun r => length (scores r) = 2%nat /\
                   approx_one (fsum (scores r)) = true)
         (argilla_format predictions_example).
Proof.
  split; [reflexivity|].
  split; [reflexivity|].
  repeat constructor.
Qed.

(** ** The registrations *)

(** C1: in the notebook cells the two registrations are configured on
    "/transformers/" and "/spacy/", neither of which is the path of a
    prediction endpoint (those are "/sentiment/" and "/ner/"), so no
    registration is configured on either prediction endpoint.  The
    appendix [main.py] keeps the "/transformers/" registration and adds
    two on "/ner/" and "/sentiment/", which cover both endpoints. *)
Theorem C1_registrations_off_route :
  prediction_paths notebook_app = ["/sentiment/"; "/ner/"] /\
  map api_endpoint (user_middleware notebook_app)
    = ["/transformers/"; "/spacy/"] /\
  map (registration_served notebook_app) (user_middleware notebook_app)
    = [false; false] /\
  configured_for notebook_app "/sentiment/" = [] /\
  configured_for notebook_app "/ner/" = [] /\
  predictions_monitored notebook_app = false /\
  prediction_paths main_py_app = ["/sentiment/"; "/ner/"] /\
  map api_endpoint (user_middleware main_py_app)
    = ["/transformers/"; "/ner/"; "/sentiment/"] /\
  map (registration_served main_py_app) (user_middleware main_py_app)
    = [false; true; true] /\
  predictions_monitored main_py_app = true.
Proof. repeat split. Qed.

(** ** Runs on the notebook's requests *)

(** The response the notebook shows for its [requests.post] call. *)
Example sentiment_response_recorded :
  predict_transformers recorded_transformers_pipeline
    ["I like Argilla"; "I hated data labelling but now I don't"] 0%nat
  = (Ok [ {| labels := ["NEGATIVE"; "POSITIVE"];
             scores := [0.8717259168624878%float; 0.128274068236351%float] |};
          {| labels := ["NEGATIVE"; "POSITIVE"];
             scores := [0.9916356801986694%float;
                        0.008364332839846611%float] |} ],
     1%nat).
Proof. reflexivity. Qed.

Example sentiment_response_scores_sum :
  forallb (fun r => approx_one (fsum (scores r)))
    (argilla_format
       [ [ mkLabelScore "NEGATIVE" 0.8717259168624878%float;
           mkLabelScore "POSITIVE" 0.128274068236351%float ];
         [ mkLabelScore "NEGATIVE" 0.9916356801986694%float;
           mkLabelScore "POSITIVE" 0.008364332839846611%float ] ])
  = true.
Proof. reflexivity. Qed.

Example sentiment_failure_propagates :
  predict_transformers failing_transformers_pipeline ["I like Argilla"] 0%nat
  = (Raise "inference failed", 1%nat).
Proof. reflexivity. Qed.

Example ner_response_stub :
  predict_spacy stub_spacy_pipeline ["Paris is nice"; ""] 0%nat
  = (Ok [ {| text := "Paris is nice";
             entities := [ {| e_label := "TEXT"; e_start := 0;
                              e_end := 13 |} ] |};
          {| text := ""; entities := [] |} ],
     2%nat).
Proof. reflexivity. Qed.

Example text2records_longer_outputs :
  text2records stub_text_mapper ["I like Argilla"]
    [ {| labels := ["NEGATIVE"]; scores := [1%float] |};
      {| labels := ["POSITIVE"]; scores := [0%float] |} ] 0%nat
  = (Ok [ ("I like Argilla",
           {| labels := ["NEGATIVE"]; scores := [1%float] |}) ],
     0%nat).
Proof. reflexivity. Qed.

Example text2records_empty_outputs :
  text2records stub_text_mapper ["I like Argilla"] [] 0%nat = (Ok [], 0%nat).
Proof. reflexivity. Qed.

(** ** The statements at concrete inputs

    The batch is the one the notebook posts to [/sentiment/]; the
    collaborators are the stand-ins defined above, started with a call
    counter of 0. *)

Lemma stub_spacy_pipeline_returns t calls :
  exists doc calls', stub_spacy_pipeline t calls = (Ok doc, calls').
Proof. destruct t; eexists; eexists; reflexivity. Defined.

Lemma stub_spacy_pipeline_spans t calls doc calls' :
  stub_spacy_pipeline t calls = (Ok doc, calls') ->
  Forall (fun s => (0 <= start_char s < end_char s)%Z /\
                   (end_char s <= Z.of_nat (String.length t))%Z)
         (ents doc).
Proof.
  destruct t as [|c t]; cbn; intros H; injection H as <- _; cbn.
  - constructor.
  - repeat constructor; cbn; lia.
Defined.

Lemma C2_witness :
  let batch := ["I like Argilla"; "I hated data labelling but now I don't"] in
  exists predictions,
    stub_transformers_pipeline batch 0%nat = (Ok predictions, 1%nat) /\
    length predictions = length batch /\
    exists out,
      predict_transformers stub_transformers_pipeline batch 0%nat
        = (Ok out, 1%nat) /\
      length out = length batch /\
      forall i data, nth_error batch i = Some data ->
        exists prediction,
          nth_error predictions i = Some prediction /\
          nth_error out i =
            Some {| labels := map (fun p => label p) prediction;
                    scores := map (fun p => score p) prediction |}.
Proof.
  intros batch. eexists. split; [reflexivity|]. split; [reflexivity|].
  apply (@C2_predict_transformers_one_per_input
           nat string stub_transformers_pipeline batch 0%nat _ 1%nat);
    reflexivity.
Defined.

Lemma C3_witness :
  let batch := ["Paris is nice"; ""] in
  (forall t w0, In t batch ->
     exists doc w1, stub_spacy_pipeline t w0 = (Ok doc, w1)) /\
  exists out w',
    predict_spacy stub_spacy_pipeline batch 0%nat = (Ok out, w') /\
    length out = length batch /\
    Forall2
      (fun t r =>
         text r = t /\
         exists doc w1 w2,
           stub_spacy_pipeline t w1 = (Ok doc, w2) /\
           entities r =
             map (fun ent => {| e_label := label_ ent;
                                e_start := start_char ent;
                                e_end := end_char ent |})
                 (ents doc))
      batch out.
Proof.
  intros batch. split.
  - intros t w0 _. apply stub_spacy_pipeline_returns.
  - apply (@C3_predict_spacy_one_per_text nat string stub_spacy_pipeline
             batch 0%nat).
    intros t w0 _. apply stub_spacy_pipeline_returns.
Defined.

Lemma C4_witness :
  let batch := ["I like Argilla"; "I hated data labelling but now I don't"] in
  let out := argilla_format [ [ mkLabelScore "NEGATIVE" 0.0029897126369178295%float;
                                mkLabelScore "POSITIVE" 0.9970102310180664%float ];
                              [ mkLabelScore "NEGATIVE" 0.0029897126369178295%float;
                                mkLabelScore "POSITIVE" 0.9970102310180664%float ] ] in
  predict_transformers stub_transformers_pipeline batch 0%nat = (Ok out, 1%nat) /\
  Forall (fun r => length (labels r) = length (scores r)) out.
Proof.
  intros batch out. split; [reflexivity|].
  apply (@C4_labels_scores_same_length
           nat string stub_transformers_pipeline batch 0%nat out 1%nat).
  reflexivity.
Defined.

Lemma C5_witness :
  let batch := ["Paris is nice"; ""] in
  let out := [ {| text := "Paris is nice";
                  entities := [ {| e_label := "TEXT"; e_start := 0;
                                   e_end := 13 |} ] |};
               {| text := ""; entities := [] |} ] in
  (forall t w doc w',
      stub_spacy_pipeline t w = (Ok doc, w') ->
      Forall (fun s => (0 <= start_char s < end_char s)%Z /\
                       (end_char s <= Z.of_nat (String.length t))%Z)
             (ents doc)) /\
  predict_spacy stub_spacy_pipeline batch 0%nat = (Ok out, 2%nat) /\
  Forall (fun r =>
            Forall (fun e => (0 <= e_start e < e_end e)%Z /\
                             (e_end e <= Z.of_nat (String.length (text r)))%Z)
                   (entities r))
         out.
Proof.
  intros batch out. split; [exact stub_spacy_pipeline_spans|].
  split; [reflexivity|].
  apply (@C5_entities_in_text nat string stub_spacy_pipeline
           stub_spacy_pipeline_spans batch 0%nat out 2%nat).
  reflexivity.
Defined.

Lemma stub_text_mapper_returns data prediction (calls : nat) :
  exists r calls', stub_text_mapper data prediction calls = (Ok r, calls').
Proof. eexists; eexists; reflexivity. Defined.

Lemma stub_token_mapper_returns data prediction (calls : nat) :
  exists r calls', stub_token_mapper data prediction calls = (Ok r, calls').
Proof. eexists; eexists; reflexivity. Defined.

Lemma stub_text_mapper_stateless : stateless stub_text_mapper.
Proof. exists (fun data prediction => Ok (data, prediction)). reflexivity. Defined.

Lemma stub_token_mapper_stateless : stateless stub_token_mapper.
Proof. exists (fun data prediction => Ok (data, prediction)). reflexivity. Defined.

Lemma C7_witness :
  stateless stub_text_mapper /\
  stateless stub_token_mapper /\
  (forall batch outputs,
      exists outcome,
        forall w, text2records stub_text_mapper batch outputs w = (outcome, w)) /\
  (forall batch outputs,
      exists outcome,
        forall w, token2records stub_token_mapper batch outputs w = (outcome, w)) /\
  (forall batch predictions w1 w1' w2 w2',
      stub_transformers_pipeline batch w1 = (Ok predictions, w1') ->
      stub_transformers_pipeline batch w2 = (Ok predictions, w2') ->
      exists out,
        predict_transformers stub_transformers_pipeline batch w1 = (Ok out, w1') /\
        predict_transformers stub_transformers_pipeline batch w2 = (Ok out, w2')) /\
  (forall batch docs w1 w1' w2 w2',
      comprehension stub_spacy_pipeline batch w1 = (Ok docs, w1') ->
      comprehension stub_spacy_pipeline batch w2 = (Ok docs, w2') ->
      exists out,
        predict_spacy stub_spacy_pipeline batch w1 = (Ok out, w1') /\
        predict_spacy stub_spacy_pipeline batch w2 = (Ok out, w2')).
Proof.
  split; [exact stub_text_mapper_stateless|].
  split; [exact stub_token_mapper_stateless|].
  exact (@C7_mappers_and_adapter_stateless
           nat string stub_transformers_pipeline stub_spacy_pipeline
           _ _ stub_text_mapper stub_token_mapper
           stub_text_mapper_stateless stub_token_mapper_stateless).
Defined.

Lemma C9_witness :
  let batch := ["I like Argilla"; "I hated data labelling but now I don't"] in
  let short := [ {| labels := ["NEGATIVE"; "POSITIVE"];
                    scores := [0.8717259168624878%float;
                               0.128274068236351%float] |} ] in
  (forall data prediction w,
      exists r w', stub_text_mapper data prediction w = (Ok r, w')) /\
  (forall data prediction w,
      exists r w', stub_token_mapper data prediction w = (Ok r, w')) /\
  (exists records w',
      text2records stub_text_mapper batch short 0%nat = (Ok records, w') /\
      length records = 1%nat) /\
  text2records stub_text_mapper batch short 0%nat =
    text2records stub_text_mapper ["I like Argilla"] short 0%nat.
Proof.
  intros batch short.
  split; [exact stub_text_mapper_returns|].
  split; [exact stub_token_mapper_returns|].
  exact (proj1 (@C9_zip_drops_surplus
                  nat string _ _ stub_text_mapper stub_token_mapper
                  stub_text_mapper_returns stub_token_mapper_returns
                  batch 0%nat) short).
Defined.

Lemma C10_witness :
  let batch := ["I really like argilla!"] in
  let out := [ {| labels := ["NEGATIVE"; "POSITIVE"];
                  scores := [0.0029897126369178295%float;
                             0.9970102310180664%float] |} ] in
  predict_transformers stub_transformers_pipeline batch 0%nat = (Ok out, 1%nat) /\
  exists predictions,
    stub_transformers_pipeline batch 0%nat = (Ok predictions, 1%nat) /\
    Forall2
      (fun r prediction =>
         forall i,
           nth_error (labels r) i = option_map label (nth_error prediction i) /\
           nth_error (scores r) i = option_map score (nth_error prediction i))
      out predictions.
Proof.
  intros batch out. split; [reflexivity|].
  apply (@C10_labels_scores_aligned
           nat string stub_transformers_pipeline batch 0%nat out 1%nat).
  reflexivity.
Defined.

(** ** Further behaviour of the handlers and the mappers *)

Section Behaviour.

Variables (World Exn : Type).

Local Abbreviation IO' := (M World Exn).

Variable transformers_pipeline : list string -> IO' (list (list LabelScore)).
Variable spacy_pipeline : string -> IO' Doc.
Variables (TextClassificationRecord TokenClassificationRecord : Type).
Variable text_classification_mapper :
  string -> SentimentRecord -> IO' TextClassificationRecord.
Variable token_classification_mapper :
  string -> NerRecord -> IO' TokenClassificationRecord.

(** *** Comprehensions: splitting, failing, tracing *)

Lemma comprehension_ext {W A B : Type} (f g : A -> M W Exn B) :
  (forall x w, f x w = g x w) ->
  forall xs w, comprehension f xs w = comprehension g xs w.
Proof.
  intros Hfg xs. induction xs as [|x rest IH]; intros w; [reflexivity|].
  cbn [comprehension]. unfold bind. rewrite Hfg.
  destruct (g x w) as [[y|e] w1]; [|reflexivity].
  now rewrite IH.
Qed.

(** A comprehension over a concatenation runs the two parts in turn. *)
Lemma comprehension_app {A B : Type} (f : A -> IO' B) xs ys :
  forall w,
    comprehension f (xs ++ ys) w =
      match comprehension f xs w with
      | (Ok out1, w1) =>
          match comprehension f ys w1 with
          | (Ok out2, w2) => (Ok (out1 ++ out2)%list, w2)
          | (Raise e, w2) => (Raise e, w2)
          end
      | (Raise e, w1) => (Raise e, w1)
      end.
Proof.
  induction xs as [|x rest IH]; intros w.
  - cbn. destruct (comprehension f ys w) as [[out2|e] w2]; reflexivity.
  - cbn [app comprehension]. unfold bind.
    destruct (f x w) as [[y|e] w0]; [|reflexivity].
    rewrite IH.
    destruct (comprehension f rest w0) as [[out1|e] w1]; [|reflexivity].
    unfold ret.
    destruct (comprehension f ys w1) as [[out2|e] w2]; reflexivity.
Qed.

(** The first call that raises ends the comprehension, in the state
    that call left. *)
Lemma comprehension_fail_fast {A B : Type} (f : A -> IO' B) pre x post :
  forall w out w1 e w2,
    comprehension f pre w = (Ok out, w1) ->
    f x w1 = (Raise e, w2) ->
    comprehension f (pre ++ x :: post) w = (Raise e, w2).
Proof.
  intros w out w1 e w2 Hpre Hx.
  rewrite comprehension_app, Hpre. cbn [comprehension]. unfold bind.
  now rewrite Hx.
Qed.

(** On a traced body, the comprehension computes what it computes on
    the body itself, and the log grows by the elements the body was
    called on: the whole list on success; on an exception, the elements
    up to and including the one the body raised on, and none after. *)
Lemma comprehension_traced {A B : Type} (f : A -> IO' B) xs :
  forall w log,
  exists k,
    (k <= length xs)%nat /\
    comprehension (traced f) xs (w, log) =
      (fst (comprehension f xs w),
       (snd (comprehension f xs w), (log ++ firstn k xs)%list)) /\
    (forall out, fst (comprehension f xs w) = Ok out -> k = length xs) /\
    (forall e, fst (comprehension f xs w) = Raise e ->
       exists j x out w1,
         k = S j /\
         nth_error xs j = Some x /\
         comprehension f (firstn j xs) w = (Ok out, w1) /\
         f x w1 = (Raise e, snd (comprehension f xs w))).
Proof.
  induction xs as [|x rest IH]; intros w log.
  - exists 0%nat. cbn. rewrite app_nil_r.
    repeat split; auto. intros e He. discriminate.
  - cbn [comprehension]. unfold bind. unfold traced at 1. cbn [fst snd].
    destruct (f x w) as [[y|e] w1] eqn:Hx.
    + destruct (IH w1 (log ++ [x])%list) as (k & Hk & Hrun & Hok & Hraise).
      exists (S k). rewrite Hrun.
      destruct (comprehension f rest w1) as [[ys|e] w2] eqn:Hrest;
        cbn [fst snd firstn] in *; rewrite <- app_assoc; cbn [app].
      * repeat split; [cbn; lia| |].
        -- intros out _. cbn. f_equal. now apply (Hok ys).
        -- intros e He. discriminate.
      * repeat split; [cbn; lia| |].
        -- intros out Hout. discriminate.
        -- intros e' He'. injection He' as <-.
           destruct (Hraise e eq_refl) as (j & x' & out & w1' & -> & Hj & Hpre & Hcall).
           exists (S j), x', (y :: out), w1'.
           repeat split; [exact Hj| |exact Hcall].
           cbn [firstn]. now apply comprehension_cons_ok with w1.
    + exists 1%nat. cbn [fst snd firstn].
      repeat split; [cbn; lia| |].
      * intros out Hout. discriminate.
      * intros e' He'. injection He' as <-.
        exists 0%nat, x, [], w. repeat split. exact Hx.
Qed.

(** [zip] of two concatenations whose first parts have equal length. *)
Lemma combine_app_aligned {A B : Type} (xs1 xs2 : list A) (ys1 ys2 : list B) :
  length xs1 = length ys1 ->
  combine (xs1 ++ xs2) (ys1 ++ ys2) = (combine xs1 ys1 ++ combine xs2 ys2)%list.
Proof.
  revert ys1. induction xs1 as [|x xs1 IH]; intros [|y ys1] Hlen;
    cbn in *; try discriminate; [reflexivity|].
  f_equal. apply IH. now injection Hlen.
Qed.

(** [zip] cut at a position both lists reach. *)
Lemma combine_split_at {A B : Type} (xs : list A) (ys : list B) k x y :
  nth_error xs k = Some x ->
  nth_error ys k = Some y ->
  combine xs ys =
    (combine (firstn k xs) (firstn k ys)
       ++ (x, y) :: combine (skipn (S k) xs) (skipn (S k) ys))%list.
Proof.
  revert xs ys. induction k as [|k IH]; intros [|x0 xs] [|y0 ys] Hx Hy;
    cbn in *; try discriminate.
  - now injection Hx as ->; injection Hy as ->.
  - f_equal. now apply IH.
Qed.

Lemma nth_error_combine {A B : Type} (xs : list A) (ys : list B) i x y :
  nth_error (combine xs ys) i = Some (x, y) ->
  nth_error xs i = Some x /\ nth_error ys i = Some y.
Proof.
  revert xs ys. induction i as [|i IH]; intros [|x0 xs] [|y0 ys] H;
    cbn in *; try discriminate.
  - injection H as -> ->. now split.
  - now apply IH.
Qed.

Lemma Forall2_nth_error_r {A B : Type} (P : A -> B -> Prop) xs ys :
  Forall2 P xs ys ->
  forall i y, nth_error ys i = Some y ->
              exists x, nth_error xs i = Some x /\ P x y.
Proof.
  induction 1 as [|x0 y0 xs ys HP _ IH]; intros [|i] y Hy;
    cbn in *; try discriminate.
  - injection Hy as <-. now exists x0.
  - now apply IH.
Qed.

(** *** The NER handler, batch by batch *)

Lemma ner_records_app batch1 batch2 docs1 docs2 :
  length batch1 = length docs1 ->
  ner_records (batch1 ++ batch2) (docs1 ++ docs2)
  = (ner_records batch1 docs1 ++ ner_records batch2 docs2)%list.
Proof.
  intros Hlen. unfold ner_records.
  now rewrite combine_app_aligned, map_app.
Qed.

Lemma predict_spacy_run batch w :
  predict_spacy spacy_pipeline batch w =
    match comprehension spacy_pipeline batch w with
    | (Ok docs, w') => (Ok (ner_records batch docs), w')
    | (Raise e, w') => (Raise e, w')
    end.
Proof. unfold predict_spacy. now rewrite predict_spacy_loop_run. Qed.

(** X1: handling a batch that is the concatenation of two batches is
    handling the first, then the second in the state the first left, and
    concatenating the two responses; an exception in either part is the
    outcome of the whole. *)
Theorem predict_spacy_concat batch1 batch2 w :
  predict_spacy spacy_pipeline (batch1 ++ batch2) w =
    match predict_spacy spacy_pipeline batch1 w with
    | (Ok out1, w1) =>
        match predict_spacy spacy_pipeline batch2 w1 with
        | (Ok out2, w2) => (Ok (out1 ++ out2)%list, w2)
        | (Raise e, w2) => (Raise e, w2)
        end
    | (Raise e, w1) => (Raise e, w1)
    end.
Proof.
  rewrite !predict_spacy_run, comprehension_app.
  destruct (comprehension spacy_pipeline batch1 w) as [[docs1|e] w1] eqn:H1;
    [|reflexivity].
  rewrite predict_spacy_run.
  destruct (comprehension spacy_pipeline batch2 w1) as [[docs2|e] w2];
    [|reflexivity].
  rewrite ner_records_app; [reflexivity|].
  symmetry. eapply comprehension_length, H1.
Qed.

(** X2: when the provider raises on a text, the handler raises the same
    exception in the state that call left: the records built for the
    texts before it are not returned, and the texts after it play no
    role. *)
Theorem predict_spacy_fail_fast before t after w out w1 e w2 :
  predict_spacy spacy_pipeline before w = (Ok out, w1) ->
  spacy_pipeline t w1 = (Raise e, w2) ->
  predict_spacy spacy_pipeline (before ++ t :: after) w = (Raise e, w2).
Proof.
  intros Hbefore Ht.
  apply predict_spacy_inv in Hbefore as (docs & Hdocs & _).
  rewrite predict_spacy_run.
  erewrite comprehension_fail_fast by eassumption. reflexivity.
Qed.

(** X3: the handler calls the provider on the texts of the batch, in
    batch order, once each, and on nothing else.  When it returns, the
    calls are the whole batch; when it raises, the calls are the texts
    up to and including the one the provider raised on, and no text
    after it.  Tracing the provider changes neither the response nor the
    state. *)
Theorem predict_spacy_calls batch w log :
  exists k,
    (k <= length batch)%nat /\
    predict_spacy (traced spacy_pipeline) batch (w, log) =
      (fst (predict_spacy spacy_pipeline batch w),
       (snd (predict_spacy spacy_pipeline batch w),
        (log ++ firstn k batch)%list)) /\
    (forall out, fst (predict_spacy spacy_pipeline batch w) = Ok out ->
                 k = length batch) /\
    (forall e, fst (predict_spacy spacy_pipeline batch w) = Raise e ->
       exists j t out w1,
         k = S j /\
         nth_error batch j = Some t /\
         predict_spacy spacy_pipeline (firstn j batch) w = (Ok out, w1) /\
         spacy_pipeline t w1
           = (Raise e, snd (predict_spacy spacy_pipeline batch w))).
Proof.
  destruct (comprehension_traced spacy_pipeline batch w log)
    as (k & Hk & Hrun & Hok & Hraise).
  exists k. split; [exact Hk|].
  unfold predict_spacy at 1. rewrite predict_spacy_loop_run, Hrun.
  rewrite !(predict_spacy_run batch w).
  destruct (comprehension spacy_pipeline batch w) as [[docs|e] w'];
    cbn [fst snd app] in *.
  - split; [reflexivity|]. split.
    + intros out _. now apply (Hok docs).
    + intros e He. discriminate.
  - split; [reflexivity|]. split.
    + intros out Hout. discriminate.
    + intros e' He'. injection He' as <-.
      destruct (Hraise e eq_refl) as (j & t & docs & w1 & -> & Hj & Hpre & Hcall).
      exists j, t, (ner_records (firstn j batch) docs), w1.
      repeat split; [exact Hj| |exact Hcall].
      now rewrite predict_spacy_run, Hpre.
Qed.

(** *** The record mappers, pair by pair *)

Lemma zip_comprehension_pairing {A B C : Type} (f : A -> B -> IO' C)
      xs ys w out w' :
  comprehension (fun '(x, y) => f x y) (combine xs ys) w = (Ok out, w') ->
  forall i r, nth_error out i = Some r ->
    exists x y w1 w2,
      nth_error xs i = Some x /\ nth_error ys i = Some y /\
      f x y w1 = (Ok r, w2).
Proof.
  intros Hrun i r Hi.
  apply comprehension_Forall2 in Hrun.
  destruct (Forall2_nth_error_r Hrun _ Hi) as ([x y] & Hxy & w1 & w2 & Hcall).
  apply nth_error_combine in Hxy as (Hx & Hy).
  now exists x, y, w1, w2.
Qed.

Lemma zip_comprehension_fail_fast {A B C : Type} (f : A -> B -> IO' C)
      xs ys k x y w out w1 e w2 :
  comprehension (fun '(x, y) => f x y)
                (combine (firstn k xs) (firstn k ys)) w = (Ok out, w1) ->
  nth_error xs k = Some x ->
  nth_error ys k = Some y ->
  f x y w1 = (Raise e, w2) ->
  comprehension (fun '(x, y) => f x y) (combine xs ys) w = (Raise e, w2).
Proof.
  intros Hpre Hx Hy Hcall.
  rewrite (combine_split_at _ _ _ Hx Hy).
  eapply comprehension_fail_fast; [exact Hpre|exact Hcall].
Qed.

Lemma zip_comprehension_traced {A B C : Type} (f : A -> B -> IO' C)
      xs ys w log :
  let run := comprehension (fun '(x, y) => f x y) (combine xs ys) w in
  exists k,
    (k <= Nat.min (length xs) (length ys))%nat /\
    comprehension (fun '(x, y) => traced2 f x y) (combine xs ys) (w, log) =
      (fst run, (snd run, (log ++ firstn k (combine xs ys))%list)) /\
    (forall out, fst run = Ok out -> k = Nat.min (length xs) (length ys)) /\
    (forall e, fst run = Raise e ->
       exists j x y out w1,
         k = S j /\
         nth_error xs j = Some x /\
         nth_error ys j = Some y /\
         comprehension (fun '(x, y) => f x y)
                       (combine (firstn j xs) (firstn j ys)) w = (Ok out, w1) /\
         f x y w1 = (Raise e, snd run)).
Proof.
  intros run. subst run.
  destruct (comprehension_traced (fun '(x, y) => f x y) (combine xs ys) w log)
    as (k & Hk & Hrun & Hok & Hraise).
  rewrite length_combine in Hk, Hok.
  exists k. split; [exact Hk|]. split; [|split; [exact Hok|]].
  - rewrite <- Hrun. apply comprehension_ext. now intros [x y] s.
  - intros e He.
    destruct (Hraise e He) as (j & [x y] & out & w1 & -> & Hj & Hpre & Hcall).
    apply nth_error_combine in Hj as (Hx & Hy).
    rewrite combine_firstn in Hpre.
    now exists j, x, y, out, w1.
Qed.

Lemma zip_comprehension_concat {A B C : Type} (f : A -> B -> IO' C)
      xs1 xs2 ys1 ys2 w :
  length xs1 = length ys1 ->
  comprehension (fun '(x, y) => f x y) (combine (xs1 ++ xs2) (ys1 ++ ys2)) w =
    match comprehension (fun '(x, y) => f x y) (combine xs1 ys1) w with
    | (Ok out1, w1) =>
        match comprehension (fun '(x, y) => f x y) (combine xs2 ys2) w1 with
        | (Ok out2, w2) => (Ok (out1 ++ out2)%list, w2)
        | (Raise e, w2) => (Raise e, w2)
        end
    | (Raise e, w1) => (Raise e, w1)
    end.
Proof.
  intros Hlen. now rewrite combine_app_aligned, comprehension_app.
Qed.

(** X4: the record at position i of what a mapper function returns is
    what the library mapper returned for the input at position i of the
    batch and the output at position i of the outputs. *)
Theorem records_pair_by_position :
  (forall batch outputs w records w',
      text2records text_classification_mapper batch outputs w
        = (Ok records, w') ->
      forall i r, nth_error records i = Some r ->
        exists data prediction w1 w2,
          nth_error batch i = Some data /\
          nth_error outputs i = Some prediction /\
          text_classification_mapper data prediction w1 = (Ok r, w2)) /\
  (forall batch outputs w records w',
      token2records token_classification_mapper batch outputs w
        = (Ok records, w') ->
      forall i r, nth_error records i = Some r ->
        exists data prediction w1 w2,
          nth_error batch i = Some data /\
          nth_error outputs i = Some prediction /\
          token_classification_mapper data prediction w1 = (Ok r, w2)).
Proof.
  split; intros batch outputs w records w' Hrun i r Hi.
  - exact (zip_comprehension_pairing _ _ _ _ Hrun _ Hi).
  - exact (zip_comprehension_pairing _ _ _ _ Hrun _ Hi).
Qed.

(** X5: the library mapper is called on the pairs of [zip(batch,
    outputs)], in order, once each, and on nothing else: an element
    beyond the shorter list never reaches it.  When the mapper function
    returns, the calls are all the pairs; when it raises, the calls are
    the pairs up to and including the one the library mapper raised on,
    and no pair after it.  Tracing changes neither the outcome nor the
    state. *)
Theorem mappers_calls :
  (forall batch outputs w log,
      let run := text2records text_classification_mapper batch outputs w in
      exists k,
        (k <= Nat.min (length batch) (length outputs))%nat /\
        text2records (traced2 text_classification_mapper) batch outputs (w, log)
          = (fst run, (snd run, (log ++ firstn k (combine batch outputs))%list)) /\
        (forall records, fst run = Ok records ->
                         k = Nat.min (length batch) (length outputs)) /\
        (forall e, fst run = Raise e ->
           exists j data prediction records w1,
             k = S j /\
             nth_error batch j = Some data /\
             nth_error outputs j = Some prediction /\
             text2records text_classification_mapper
               (firstn j batch) (firstn j outputs) w = (Ok records, w1) /\
             text_classification_mapper data prediction w1
               = (Raise e, snd run))) /\
  (forall batch outputs w log,
      let run := token2records token_classification_mapper batch outputs w in
      exists k,
        (k <= Nat.min (length batch) (length outputs))%nat /\
        token2records (traced2 token_classification_mapper) batch outputs (w, log)
          = (fst run, (snd run, (log ++ firstn k (combine batch outputs))%list)) /\
        (forall records, fst run = Ok records ->
                         k = Nat.min (length batch) (length outputs)) /\
        (forall e, fst run = Raise e ->
           exists j data prediction records w1,
             k = S j /\
             nth_error batch j = Some data /\
             nth_error outputs j = Some prediction /\
             token2records token_classification_mapper
               (firstn j batch) (firstn j outputs) w = (Ok records, w1) /\
             token_classification_mapper data prediction w1
               = (Raise e, snd run))).
Proof.
  split; intros batch outputs w log.
  - apply (zip_comprehension_traced text_classification_mapper).
  - apply (zip_comprehension_traced token_classification_mapper).
Qed.

(** X6: when the library mapper raises on the pair at position k, the
    mapper function raises the same exception in the state that call
    left; the records mapped from the pairs before it are not
    returned. *)
Theorem mappers_fail_fast :
  (forall batch outputs k data prediction w records w1 e w2,
      text2records text_classification_mapper
        (firstn k batch) (firstn k outputs) w = (Ok records, w1) ->
      nth_error batch k = Some data ->
      nth_error outputs k = Some prediction ->
      text_classification_mapper data prediction w1 = (Raise e, w2) ->
      text2records text_classification_mapper batch outputs w
        = (Raise e, w2)) /\
  (forall batch outputs k data prediction w records w1 e w2,
      token2records token_classification_mapper
        (firstn k batch) (firstn k outputs) w = (Ok records, w1) ->
      nth_error batch k = Some data ->
      nth_error outputs k = Some prediction ->
      token_classification_mapper data prediction w1 = (Raise e, w2) ->
      token2records token_classification_mapper batch outputs w
        = (Raise e, w2)).
Proof.
  split; intros batch outputs k data prediction w records w1 e w2 Hpre Hd Hp Hcall.
  - eapply zip_comprehension_fail_fast; eassumption.
  - eapply zip_comprehension_fail_fast; eassumption.
Qed.

(** X7: mapping a batch and its outputs in two parts that are cut at
    the same position gives the records of the first part followed by
    those of the second, the second part being mapped in the state the
    first left. *)
Theorem mappers_concat batch1 batch2 w :
  (forall outputs1 outputs2,
      length batch1 = length outputs1 ->
      text2records text_classification_mapper
        (batch1 ++ batch2) (outputs1 ++ outputs2) w =
        match text2records text_classification_mapper batch1 outputs1 w with
        | (Ok out1, w1) =>
            match text2records text_classification_mapper
                    batch2 outputs2 w1 with
            | (Ok out2, w2) => (Ok (out1 ++ out2)%list, w2)
            | (Raise e, w2) => (Raise e, w2)
            end
        | (Raise e, w1) => (Raise e, w1)
        end) /\
  (forall outputs1 outputs2,
      length batch1 = length outputs1 ->
      token2records token_classification_mapper
        (batch1 ++ batch2) (outputs1 ++ outputs2) w =
        match token2records token_classification_mapper batch1 outputs1 w with
        | (Ok out1, w1) =>
            match token2records token_classification_mapper
                    batch2 outputs2 w1 with
            | (Ok out2, w2) => (Ok (out1 ++ out2)%list, w2)
            | (Raise e, w2) => (Raise e, w2)
            end
        | (Raise e, w1) => (Raise e, w1)
        end).
Proof.
  split; intros outputs1 outputs2 Hlen.
  - now apply zip_comprehension_concat.
  - now apply zip_comprehension_concat.
Qed.

(** *** A handler followed by its mapper

    What the middleware hands to [records_mapper]: the request batch and
    the handler's response for it. *)

(** X8: when the response of the sentiment handler is mapped with the
    batch it answers, the number of records is the smaller of the batch
    length and the number of raw predictions the provider returned (the
    handler returns one object per raw prediction, whatever the batch
    length), and the record at position i is mapped from the input at
    position i and the labels and scores of the raw prediction at
    position i. *)
Theorem sentiment_then_text2records batch w out w1 records w2 :
  predict_transformers transformers_pipeline batch w = (Ok out, w1) ->
  text2records text_classification_mapper batch out w1 = (Ok records, w2) ->
  exists predictions,
    transformers_pipeline batch w = (Ok predictions, w1) /\
    length out = length predictions /\
    length records = Nat.min (length batch) (length predictions) /\
    forall i r, nth_error records i = Some r ->
      exists data prediction wa wb,
        nth_error batch i = Some data /\
        nth_error predictions i = Some prediction /\
        text_classification_mapper data
          {| labels := map (fun p => label p) prediction;
             scores := map (fun p => score p) prediction |} wa = (Ok r, wb).
Proof.
  intros Hout Hrec.
  apply predict_transformers_inv in Hout as (predictions & Hprov & ->).
  exists predictions. split; [exact Hprov|].
  assert (Hlen : length (argilla_format predictions) = length predictions).
  { unfold argilla_format. apply length_map. }
  split; [exact Hlen|]. split.
  - rewrite (comprehension_length _ _ _ Hrec), length_combine. now rewrite Hlen.
  - intros i r Hi.
    destruct (zip_comprehension_pairing _ _ _ _ Hrec _ Hi)
      as (data & formatted & wa & wb & Hd & Hf & Hcall).
    unfold argilla_format in Hf. rewrite nth_error_map in Hf.
    destruct (nth_error predictions i) as [prediction|]; [|discriminate].
    injection Hf as <-. now exists data, prediction, wa, wb.
Qed.

(** X9: when the response of the NER handler is mapped with the batch
    it answers, there is one record per input text, and the record at
    position i is mapped from the text at position i and the handler's
    object at position i, whose text field is that same text. *)
Theorem ner_then_token2records batch w out w1 records w2 :
  predict_spacy spacy_pipeline batch w = (Ok out, w1) ->
  token2records token_classification_mapper batch out w1 = (Ok records, w2) ->
  length records = length batch /\
  forall i r, nth_error records i = Some r ->
    exists data prediction wa wb,
      nth_error batch i = Some data /\
      nth_error out i = Some prediction /\
      text prediction = data /\
      token_classification_mapper data prediction wa = (Ok r, wb).
Proof.
  intros Hout Hrec.
  apply predict_spacy_inv in Hout as (docs & Hdocs & ->).
  assert (Hrel := ner_records_Forall2 (comprehension_Forall2 _ _ _ Hdocs)).
  split.
  - rewrite (comprehension_length _ _ _ Hrec), length_combine.
    rewrite <- (Forall2_length Hrel). apply Nat.min_id.
  - intros i r Hi.
    destruct (zip_comprehension_pairing _ _ _ _ Hrec _ Hi)
      as (data & prediction & wa & wb & Hd & Hp & Hcall).
    exists data, prediction, wa, wb. repeat split; try assumption.
    destruct (Forall2_nth_error_r Hrel _ Hp) as (t & Ht & Htext & _).
    congruence.
Qed.

(** *** The conversion of raw predictions *)

Lemma label_score_columns_inj (p q : list LabelScore) :
  map (fun x => label x) p = map (fun x => label x) q ->
  map (fun x => score x) p = map (fun x => score x) q ->
  p = q.
Proof.
  revert q. induction p as [|[l s] p IH]; intros [|[l' s'] q] Hl Hs;
    cbn in *; try discriminate; [reflexivity|].
  injection Hl as -> Hl. injection Hs as -> Hs. f_equal. now apply IH.
Qed.

(** X10: the conversion to the labels / scores format loses nothing:
    two lists of raw predictions with the same converted form are the
    same list. *)
Theorem argilla_format_injective predictions1 predictions2 :
  argilla_format predictions1 = argilla_format predictions2 ->
  predictions1 = predictions2.
Proof.
  revert predictions2.
  induction predictions1 as [|p rest IH]; intros [|q rest'] H;
    cbn in *; try discriminate; [reflexivity|].
  injection H as Hl Hs Hrest.
  f_equal; [now apply label_score_columns_inj | now apply IH].
Qed.

(** *** A provider without state *)

Lemma comprehension_pointwise {A B : Type} (f : A -> IO' B) (g : A -> B) :
  (forall x w, f x w = (Ok (g x), w)) ->
  forall xs w, comprehension f xs w = (Ok (map g xs), w).
Proof.
  intros Hf xs. induction xs as [|x rest IH]; intros w; [reflexivity|].
  cbn [comprehension map]. unfold bind. now rewrite Hf, IH.
Qed.

Lemma ner_records_map (doc_of : string -> Doc) batch :
  ner_records batch (map doc_of batch)
  = map (fun t => {| text := t; entities := doc_entities (doc_of t) |}) batch.
Proof.
  unfold ner_records. induction batch as [|t rest IH]; cbn; [reflexivity|].
  now rewrite IH.
Qed.

(** X11: with a provider whose answer for a text depends on that text
    alone and which leaves the state alone, the handler's object for a
    text depends on that text alone: the response is the batch mapped
    text by text, and the state is left as it was. *)
Theorem predict_spacy_text_by_text (doc_of : string -> Doc) :
  (forall t w, spacy_pipeline t w = (Ok (doc_of t), w)) ->
  forall batch w,
    predict_spacy spacy_pipeline batch w =
      (Ok (map (fun t =>
                  {| text := t;
                     entities :=
                       map (fun ent => {| e_label := label_ ent;
                                          e_start := start_char ent;
                                          e_end := end_char ent |})
                           (ents (doc_of t)) |})
               batch),
       w).
Proof.
  intros Hprov batch w.
  rewrite predict_spacy_run, (comprehension_pointwise _ _ Hprov).
  now rewrite ner_records_map.
Qed.

End Behaviour.

(** ** The further statements at concrete inputs *)

Example ner_failure_midway :
  predict_spacy picky_spacy_pipeline ["Paris is nice"; ""; "Rome"] 0%nat
  = (Raise "empty text", 2%nat).
Proof. reflexivity. Qed.

Example ner_calls_traced :
  predict_spacy (traced picky_spacy_pipeline) ["Paris is nice"; ""; "Rome"]
    (0%nat, [])
  = (Raise "empty text", (2%nat, ["Paris is nice"; ""])).
Proof. reflexivity. Qed.

Example text2records_calls_traced :
  snd (snd (text2records (traced2 stub_text_mapper) ["a"; "b"; "c"]
              [ {| labels := ["X"]; scores := [1%float] |} ] (0%nat, [])))
  = [ ("a", {| labels := ["X"]; scores := [1%float] |}) ].
Proof. reflexivity. Qed.

Lemma predict_spacy_fail_fast_witness :
  predict_spacy picky_spacy_pipeline ["Paris is nice"] 0%nat
    = (Ok [ {| text := "Paris is nice";
               entities := [ {| e_label := "TEXT"; e_start := 0;
                                e_end := 13 |} ] |} ], 1%nat) /\
  picky_spacy_pipeline "" 1%nat = (Raise "empty text", 2%nat) /\
  predict_spacy picky_spacy_pipeline (["Paris is nice"] ++ "" :: ["Rome"]) 0%nat
    = (Raise "empty text", 2%nat).
Proof.
  split; [reflexivity|]. split; [reflexivity|].
  apply (@predict_spacy_fail_fast nat string picky_spacy_pipeline
           ["Paris is nice"] "" ["Rome"] 0%nat
           [ {| text := "Paris is nice";
                entities := [ {| e_label := "TEXT"; e_start := 0;
                                 e_end := 13 |} ] |} ]
           1%nat "empty text" 2%nat);
    reflexivity.
Defined.

Lemma records_pair_by_position_witness :
  let batch := ["I like Argilla"; "I hated data labelling but now I don't"] in
  let outputs := [ {| labels := ["NEGATIVE"; "POSITIVE"];
                      scores := [0.8717259168624878%float;
                                 0.128274068236351%float] |} ] in
  let r := ("I like Argilla",
            {| labels := ["NEGATIVE"; "POSITIVE"];
               scores := [0.8717259168624878%float;
                          0.128274068236351%float] |}) in
  text2records stub_text_mapper batch outputs 0%nat = (Ok [r], 0%nat) /\
  nth_error [r] 0 = Some r /\
  exists data prediction w1 w2,
    nth_error batch 0 = Some data /\
    nth_error outputs 0 = Some prediction /\
    stub_text_mapper data prediction w1 = (Ok r, w2).
Proof.
  intros batch outputs r.
  split; [reflexivity|]. split; [reflexivity|].
  apply (proj1 (@records_pair_by_position nat string _ _
                  stub_text_mapper stub_token_mapper)
               batch outputs 0%nat [r] 0%nat eq_refl 0%nat r eq_refl).
Defined.

Lemma mappers_fail_fast_witness :
  let batch := ["a"; "b"; "c"] in
  let good := {| labels := ["X"]; scores := [1%float] |} in
  let bad := {| labels := []; scores := [] |} in
  text2records picky_text_mapper (firstn 1 batch) (firstn 1 [good; bad; good])
    0%nat = (Ok [("a", good)], 1%nat) /\
  nth_error batch 1 = Some "b" /\
  nth_error [good; bad; good] 1 = Some bad /\
  picky_text_mapper "b" bad 1%nat = (Raise "no labels", 2%nat) /\
  text2records picky_text_mapper batch [good; bad; good] 0%nat
    = (Raise "no labels", 2%nat).
Proof.
  intros batch good bad.
  split; [reflexivity|]. split; [reflexivity|].
  split; [reflexivity|]. split; [reflexivity|].
  apply (proj1 (@mappers_fail_fast nat string _ _
                  picky_text_mapper picky_token_mapper)
               batch [good; bad; good] 1%nat "b" bad 0%nat
               [("a", good)] 1%nat "no labels" 2%nat);
    reflexivity.
Defined.

Lemma mappers_concat_witness :
  let good := {| labels := ["X"]; scores := [1%float] |} in
  let bad := {| labels := []; scores := [] |} in
  length ["a"] = length [good] /\
  text2records picky_text_mapper (["a"] ++ ["b"; "c"]) ([good] ++ [good; bad])
    0%nat =
    match text2records picky_text_mapper ["a"] [good] 0%nat with
    | (Ok out1, w1) =>
        match text2records picky_text_mapper ["b"; "c"] [good; bad] w1 with
        | (Ok out2, w2) => (Ok (out1 ++ out2)%list, w2)
        | (Raise e, w2) => (Raise e, w2)
        end
    | (Raise e, w1) => (Raise e, w1)
    end.
Proof.
  intros good bad. split; [reflexivity|].
  apply (proj1 (@mappers_concat nat string _ _
                  picky_text_mapper picky_token_mapper ["a"] ["b"; "c"] 0%nat)
               [good] [good; bad]).
  reflexivity.
Defined.

Lemma sentiment_then_text2records_witness :
  let batch := ["I like Argilla"; "I hated data labelling but now I don't"] in
  exists out records,
    predict_transformers recorded_transformers_pipeline batch 0%nat
      = (Ok out, 1%nat) /\
    text2records stub_text_mapper batch out 1%nat = (Ok records, 1%nat) /\
    exists predictions,
      recorded_transformers_pipeline batch 0%nat = (Ok predictions, 1%nat) /\
      length out = length predictions /\
      length records = Nat.min (length batch) (length predictions) /\
      forall i r, nth_error records i = Some r ->
        exists data prediction wa wb,
          nth_error batch i = Some data /\
          nth_error predictions i = Some prediction /\
          stub_text_mapper data
            {| labels := map (fun p => label p) prediction;
               scores := map (fun p => score p) prediction |} wa = (Ok r, wb).
Proof.
  intros batch. eexists. eexists.
  split; [reflexivity|]. split; [reflexivity|].
  eapply (@sentiment_then_text2records nat string
            recorded_transformers_pipeline _ stub_text_mapper
            batch 0%nat);
    reflexivity.
Defined.

Lemma ner_then_token2records_witness :
  let batch := ["Paris is nice"; ""] in
  let out := [ {| text := "Paris is nice";
                  entities := [ {| e_label := "TEXT"; e_start := 0;
                                   e_end := 13 |} ] |};
               {| text := ""; entities := [] |} ] in
  let records := combine batch out in
  predict_spacy stub_spacy_pipeline batch 0%nat = (Ok out, 2%nat) /\
  token2records stub_token_mapper batch out 2%nat = (Ok records, 2%nat) /\
  length records = length batch /\
  forall i r, nth_error records i = Some r ->
    exists data prediction wa wb,
      nth_error batch i = Some data /\
      nth_error out i = Some prediction /\
      text prediction = data /\
      stub_token_mapper data prediction wa = (Ok r, wb).
Proof.
  intros batch out records.
  split; [reflexivity|]. split; [reflexivity|].
  apply (@ner_then_token2records nat string stub_spacy_pipeline _
           stub_token_mapper batch 0%nat out 2%nat records 2%nat);
    reflexivity.
Defined.

Lemma argilla_format_injective_witness :
  let predictions2 :=
    map (fun r => map (fun '(l, s) => mkLabelScore l s)
                      (combine (labels r) (scores r)))
        (argilla_format predictions_example) in
  argilla_format predictions_example = argilla_format predictions2 /\
  predictions_example = predictions2.
Proof.
  intros predictions2. split; [reflexivity|].
  apply (@argilla_format_injective predictions_example predictions2).
  reflexivity.
Defined.

Lemma predict_spacy_text_by_text_witness :
  (forall t w, quiet_spacy_pipeline t w = (Ok (quiet_spacy_doc t), w)) /\
  predict_spacy quiet_spacy_pipeline ["Paris is nice"; ""] 0%nat =
    (Ok (map (fun t =>
                {| text := t;
                   entities :=
                     map (fun ent => {| e_label := label_ ent;
                                        e_start := start_char ent;
                                        e_end := end_char ent |})
                         (ents (quiet_spacy_doc t)) |})
             ["Paris is nice"; ""]),
     0%nat).
Proof.
  split; [reflexivity|].
  apply (@predict_spacy_text_by_text nat string quiet_spacy_pipeline
           quiet_spacy_doc).
  reflexivity.
Defined.

(** ** Mappers that stamp their records *)

(** C7, as stated, fails for a library mapper that stamps its records:
    two successive invocations of [text2records] (of [token2records]) on
    the same batch and the same outputs return different records, and
    each invocation leaves a state other than the one it started in. *)
Lemma C7_stamping_mappers_differ :
  fst (text2records stamping_text_mapper ["I like Argilla"]
         [ {| labels := ["NEGATIVE"; "POSITIVE"];
              scores := [0.8717259168624878%float;
                         0.128274068236351%float] |} ] 0%nat)
  <> fst (text2records stamping_text_mapper ["I like Argilla"]
            [ {| labels := ["NEGATIVE"; "POSITIVE"];
                 scores := [0.8717259168624878%float;
                            0.128274068236351%float] |} ]
            (snd (text2records stamping_text_mapper ["I like Argilla"]
                    [ {| labels := ["NEGATIVE"; "POSITIVE"];
                         scores := [0.8717259168624878%float;
                                    0.128274068236351%float] |} ] 0%nat))) /\
  snd (text2records stamping_text_mapper ["I like Argilla"]
         [ {| labels := ["NEGATIVE"; "POSITIVE"];
              scores := [0.8717259168624878%float;
                         0.128274068236351%float] |} ] 0%nat)
  <> 0%nat /\
  fst (token2records stamping_token_mapper ["Paris is nice"]
         [ {| text := "Paris is nice"; entities := [] |} ] 0%nat)
  <> fst (token2records stamping_token_mapper ["Paris is nice"]
            [ {| text := "Paris is nice"; entities := [] |} ]
            (snd (token2records stamping_token_mapper ["Paris is nice"]
                    [ {| text := "Paris is nice"; entities := [] |} ] 0%nat))) /\
  snd (token2records stamping_token_mapper ["Paris is nice"]
         [ {| text := "Paris is nice"; entities := [] |} ] 0%nat)
  <> 0%nat.
Proof.
  cbn. repeat split; intros H; inversion H.
Qed.

(** Such a mapper is outside the premise of the statement proved above
    for mappers that leave the state alone. *)
Lemma stamping_text_mapper_not_stateless : ~ stateless stamping_text_mapper.
Proof.
  intros (g & Hg).
  specialize (Hg "" {| labels := []; scores := [] |} 0%nat).
  inversion Hg.
Qed.
